(** * Manifold elements, charts and geodesics

    A shallow embedding of [lie/base/manifold_element.h] (namespace [mana]).

    The header is a CRTP framework: [ManifoldElement<Derived>] forwards to
    the [...Impl] methods of [Derived], and every type it mentions comes from
    the traits table [ManifoldTraits<Derived>].  Here the traits table and
    the set of [...Impl] methods are type classes indexed by [Derived], the
    classes [ManifoldChart] and [ManifoldGeodesic] are records, and each
    method is a function whose first argument is the receiver. *)

From Stdlib Require Import Bool List ZArith QArith Qround Qabs Lia Lqa.
From Stdlib Require Import Floats.
Import ListNotations.

(** ** What the template parameters provide *)

(** The operations the header applies to values of type [Scalar]: only
    [operator<] (in [EqualTo]).  [Sle] and [Szero] are the scalar type's
    [<=] and literal [0]; the header never uses them, they are here to state
    sign conditions on distances and tolerances. *)
Class ScalarOps (S : Type) : Type := {
  Szero : S;
  Slt : S -> S -> bool;
  Sle : S -> S -> bool
}.

(** [Constants<Scalar>] of [lie/base/constants.h].  That header is not among
    the sources, so its one member used here, [kEpsilon], is a parameter. *)
Class Constants (S : Type) : Type := {
  kEpsilon : S
}.

(** The value produced by [return {};] at type [T] (value-initialization). *)
Class ValueInit (T : Type) : Type := {
  value_init : T
}.

(** [template <typename Derived> struct ManifoldTraits {}], as specialised by
    each realization.  [Element] is identical to [Derived]; [Chart] and
    [Geodesic] are the two records below. *)
Class ManifoldTraits (Derived : Type) : Type := {
  Scalar : Type;
  TangentVector : Type;
  EmbeddingPoint : Type;
  Dimension : Z;
  EmbeddingDimension : Z
}.

(** The methods a derived class must implement (the list in the comment
    above [class ManifoldElement]; [TangentSpaceBasisImpl] is only used
    under [#if 0]).  [ProjectImpl] has the type [Project] returns it at, an
    [EmbeddingPoint]. *)
Class ManifoldImpl (Derived : Type) {Traits : ManifoldTraits Derived} : Type := {
  FromPointImpl : EmbeddingPoint -> Derived;
  ProjectImpl : EmbeddingPoint -> EmbeddingPoint;
  IsValidImpl : EmbeddingPoint -> Scalar -> bool;
  PointImpl : Derived -> EmbeddingPoint;
  DistanceToImpl : Derived -> Derived -> Scalar;
  InterpolateImpl : Derived -> Derived -> Scalar -> Derived
}.

(** A parameter declared with a default argument: [None] is the call that
    omits it. *)
Definition default_arg {A : Type} (dflt : A) (given : option A) : A :=
  match given with
  | Some a => a
  | None => dflt
  end.

(** ** The two helper classes *)

(** [class ManifoldChart]: its constructor stores [origin] in [origin_]. *)
Record ManifoldChart (Derived : Type) : Type := Chart {
  origin_ : Derived
}.
Arguments Chart {Derived} _.
Arguments origin_ {Derived} _.

(** [class ManifoldGeodesic]: its constructor stores [beg] and [end] in
    [beg_] and [end_]. *)
Record ManifoldGeodesic (Derived : Type) : Type := Geodesic {
  beg_ : Derived;
  end_ : Derived
}.
Arguments Geodesic {Derived} _ _.
Arguments beg_ {Derived} _.
Arguments end_ {Derived} _.

(** ** [ManifoldElement<Derived>] *)

Module ManifoldElement.
Section Methods.
Context {Derived : Type} {Traits : ManifoldTraits Derived}.
Context {Ops : ScalarOps Scalar} {Consts : Constants Scalar}.
Context {Impl : ManifoldImpl Derived}.

Local Abbreviation Element := Derived (only parsing).

Definition FromPoint (point : EmbeddingPoint) : Element :=
  FromPointImpl point.

Definition Project (point : EmbeddingPoint) : EmbeddingPoint :=
  ProjectImpl point.

Definition IsValid (point : EmbeddingPoint) (tolerance : option Scalar) : bool :=
  IsValidImpl point (default_arg kEpsilon tolerance).

Definition Point (self : Element) : EmbeddingPoint :=
  PointImpl self.

Definition GeodesicTo (self rhs : Element) : ManifoldGeodesic Element :=
  Geodesic self rhs.

Definition DistanceTo (self rhs : Element) : Scalar :=
  DistanceToImpl self rhs.

Definition Interpolate (self rhs : Element) (fraction : Scalar) : Element :=
  InterpolateImpl self rhs fraction.

Definition EqualTo (self rhs : Element) (tolerance : option Scalar) : bool :=
  Slt (DistanceTo self rhs) (default_arg kEpsilon tolerance).

(** [operator==] *)
Definition op_eq (self rhs : Element) : bool :=
  EqualTo self rhs None.

(** [operator!=] *)
Definition op_ne (self rhs : Element) : bool :=
  negb (op_eq self rhs).
End Methods.
End ManifoldElement.

(** ** [ManifoldChart<Derived>] *)

Module ManifoldChart.
Section Methods.
Context {Derived : Type} {Traits : ManifoldTraits Derived}.
Context {InitElement : ValueInit Derived} {InitTangent : ValueInit TangentVector}.

Local Abbreviation Element := Derived (only parsing).

(** The body is [// TODO(erik): implement.] followed by [return {};]. *)
Definition ToTangent (self : ManifoldChart Element) (rhs : Element) : TangentVector :=
  value_init.

(** The body is [// TODO(erik): implement.] followed by [return {};]. *)
Definition ToManifold (self : ManifoldChart Element) (rhs : TangentVector) : Element :=
  value_init.
End Methods.
End ManifoldChart.

(** ** [ManifoldGeodesic<Derived>] *)

Module ManifoldGeodesic.
Section Methods.
Context {Derived : Type} {Traits : ManifoldTraits Derived}.
Context {Ops : ScalarOps Scalar} {Consts : Constants Scalar}.
Context {Impl : ManifoldImpl Derived}.

Local Abbreviation Element := Derived (only parsing).

Definition beg (self : ManifoldGeodesic Element) : Element :=
  beg_ self.

(** [end()]; [end] is reserved. *)
Definition end' (self : ManifoldGeodesic Element) : Element :=
  end_ self.

Definition Interpolate (self : ManifoldGeodesic Element) (fraction : Scalar) : Element :=
  ManifoldElement.Interpolate (beg_ self) (end_ self) fraction.

Definition Length (self : ManifoldGeodesic Element) : Scalar :=
  ManifoldElement.DistanceTo (beg_ self) (end_ self).

(** A client's use of a geodesic object: a sequence of calls of its four
    public methods.  All four are [const]; [invoke] returns the object
    after the call together with the value returned. *)
Inductive call : Type :=
| CallBeg
| CallEnd
| CallInterpolate (fraction : Scalar)
| CallLength.

Inductive reply : Type :=
| RElement (e : Element)
| RScalar (s : Scalar).

Definition invoke (self : ManifoldGeodesic Element) (c : call)
  : ManifoldGeodesic Element * reply :=
  match c with
  | CallBeg => (self, RElement (beg self))
  | CallEnd => (self, RElement (end' self))
  | CallInterpolate fraction => (self, RElement (Interpolate self fraction))
  | CallLength => (self, RScalar (Length self))
  end.

Fixpoint run (self : ManifoldGeodesic Element) (cs : list call)
  : ManifoldGeodesic Element * list reply :=
  match cs with
  | [] => (self, [])
  | c :: cs' =>
      let '(self1, r) := invoke self c in
      let '(self2, rs) := run self1 cs' in
      (self2, r :: rs)
  end.
End Methods.
End ManifoldGeodesic.

(** ** Scalar types *)

(** Strict comparison of rationals, by cross-multiplication. *)
Definition Qlt_bool (x y : Q) : bool :=
  (Qnum x * QDen y <? Qnum y * QDen x)%Z.

(** Exact rational scalars: the idealisation of [float]/[double] in which
    arithmetic does not round. *)
#[export] Instance Q_ops : ScalarOps Q := {|
  Szero := 0%Q;
  Slt := Qlt_bool;
  Sle := Qle_bool
|}.

(** IEEE 754 binary64 scalars ([double]), with the comparisons of the
    standard: every comparison with a NaN is false, and the two zeros are
    equal. *)
#[export] Instance double_ops : ScalarOps float := {|
  Szero := 0%float;
  Slt := PrimFloat.ltb;
  Sle := PrimFloat.leb
|}.

(** What the sign conditions on distances and tolerances need of the scalar
    order: zero is at most zero, and nothing non-negative lies strictly below
    something non-positive. *)
Class ScalarOrder (S : Type) {Ops : ScalarOps S} : Prop := {
  Sle_zero_zero : Sle Szero Szero = true;
  Slt_across_zero :
    forall d t : S, Sle Szero d = true -> Sle t Szero = true -> Slt d t = false
}.

(** ** Angle utilities *)

(** Modelled from the spec: [utils/angles] is not among the sources.  The
    spec describes it as "wrapping a raw angle into the canonical (-pi, pi]
    representative, and computing the shortest signed angular difference
    between two angles".  [pi] is the scalar constant for the half turn. *)
Module Angles.
Section WithPi.
Variable pi : Q.

Definition two_pi : Q := 2 * pi.

(** The number of whole turns to take off [angle] to land in (-pi, pi]. *)
Definition Turns (angle : Q) : Z :=
  Qceiling ((angle - pi) / two_pi).

Definition WrapAngle (angle : Q) : Q :=
  angle - inject_Z (Turns angle) * two_pi.

(** The shortest signed rotation that takes [from] to [to]. *)
Definition AngleDifference (from to : Q) : Q :=
  WrapAngle (to - from).
End WithPi.
End Angles.

(** ** The planar-rotation realization *)

(** Modelled from the spec: [lie/so2/so2_group_element.{h,cc}] are not among
    the sources.  The spec (section 4.8) gives a planar rotation as a 2x2
    rotation matrix "or equivalently a unit complex number / angle"; this
    model keeps the angle, since exact scalars have no trigonometry.  An
    embedding point is a raw angle, [Project] is "angle wrapping for a planar
    rotation parameter" (section 4.3), [DistanceTo] is the "absolute value of
    the wrapped angular difference", and [Interpolate] "moves along the
    geodesic from this element toward rhs", fractions outside [0,1]
    "extrapolate along the same geodesic parameterization".  Value
    initialization gives the zero angle and the zero tangent vector.

    The scalars of this module are exact rationals, where the spec's are
    floating point: it serves the inputs whose outcome rounding does not
    decide.  [SO2Double] further down is the same realization over
    [double], with rounding. *)
Module SO2.
Record SO2GroupElement : Type := FromAngle {
  angle : Q
}.

#[export] Instance traits : ManifoldTraits SO2GroupElement := {|
  Scalar := Q;
  TangentVector := Q;
  EmbeddingPoint := Q;
  Dimension := 1;
  EmbeddingDimension := 2
|}.

#[export] Instance ops : ScalarOps (@Scalar SO2GroupElement traits) := Q_ops.

#[export] Instance init_element : ValueInit SO2GroupElement := {|
  value_init := FromAngle 0
|}.

#[export] Instance init_tangent : ValueInit (@TangentVector SO2GroupElement traits) := {|
  value_init := 0%Q
|}.

Section WithConstants.
Variable pi : Q.
Variable epsilon : Q.

Definition constants : Constants (@Scalar SO2GroupElement traits) := {|
  kEpsilon := epsilon
|}.

(** Unchecked: the angle is stored as given. *)
Definition FromPointImpl (point : Q) : SO2GroupElement :=
  FromAngle point.

Definition ProjectImpl (point : Q) : Q :=
  Angles.WrapAngle pi point.

(** A raw angle is valid when it is within [tolerance] of its canonical
    representative. *)
Definition IsValidImpl (point : Q) (tolerance : Q) : bool :=
  Qlt_bool (Qabs (point - Angles.WrapAngle pi point)) tolerance.

Definition PointImpl (self : SO2GroupElement) : Q :=
  angle self.

(** The length of the shorter arc between the two rotations. *)
Definition DistanceToImpl (self rhs : SO2GroupElement) : Q :=
  Qabs (Angles.AngleDifference pi (angle self) (angle rhs)).

(** The receiver turned by [fraction] of the shortest rotation to [rhs]. *)
Definition InterpolateImpl (self rhs : SO2GroupElement) (fraction : Q) : SO2GroupElement :=
  FromAngle
    (Angles.WrapAngle pi
       (angle self + fraction * Angles.AngleDifference pi (angle self) (angle rhs))).

Definition impl : ManifoldImpl SO2GroupElement :=
  Build_ManifoldImpl SO2GroupElement traits
    FromPointImpl ProjectImpl IsValidImpl PointImpl DistanceToImpl InterpolateImpl.
End WithConstants.

(** The half turn as the literal [3.141592653589793]. *)
Definition kPi : Q := 3141592653589793 # 1000000000000000.

(** A default tolerance for the examples below ([2^-52], the machine epsilon
    of [double]); every general statement is for an arbitrary [epsilon]. *)
Definition kDoubleEpsilon : Q := 1 # 4503599627370496.

#[export] Instance double_constants : Constants (@Scalar SO2GroupElement traits) :=
  constants kDoubleEpsilon.

#[export] Instance double_impl : ManifoldImpl SO2GroupElement :=
  impl kPi.
End SO2.

(** ** More of the scalar order, and realizations over doubles *)

(** What comparing one distance with two tolerances needs of the scalar
    order: [<] is irreflexive, and [x < y <= z] gives [x < z]. *)
Class ScalarStrict (S : Type) {Ops : ScalarOps S} : Prop := {
  Slt_irrefl : forall x : S, Slt x x = false;
  Slt_le_trans :
    forall x y z : S, Slt x y = true -> Sle y z = true -> Slt x z = true
}.

(** The traits table of a realization whose [Scalar] is [double]; the other
    entries are the realization's own. *)
Definition DoubleTraits (Derived TangentVector EmbeddingPoint : Type)
    (Dimension EmbeddingDimension : Z) : ManifoldTraits Derived :=
  Build_ManifoldTraits Derived float TangentVector EmbeddingPoint
    Dimension EmbeddingDimension.

(** ** Angle utilities and planar rotations over doubles *)

(** Modelled from the spec: [utils/angles], as [Angles] above, computed in
    IEEE binary64.  [Ceil] is the exact ceiling of a finite [double] (a
    NaN, an infinity and a zero are returned as they are, and a negative
    fraction above -1 rounds up to [-0]); every other operation rounds to
    nearest as the processor does. *)
Module AnglesDouble.
Definition kPi : float := 0x1.921fb54442d18p+1%float.

Definition two_pi : float := (2 * kPi)%float.

Definition Ceil (x : float) : float :=
  match Prim2SF x with
  | S754_finite s m e =>
      if (0 <=? e)%Z then x
      else
        let k := (2 ^ (- e))%Z in
        if s then (- of_uint63 (Uint63.of_Z (Zpos m / k)))%float
        else of_uint63 (Uint63.of_Z (- (- Zpos m / k)))
  | _ => x
  end.

Definition WrapAngle (angle : float) : float :=
  (angle - Ceil ((angle - kPi) / two_pi) * two_pi)%float.

Definition AngleDifference (from to : float) : float :=
  WrapAngle (to - from)%float.
End AnglesDouble.

(** Modelled from the spec: [lie/so2/so2_group_element.{h,cc}] are not among
    the sources.  The planar rotation of [SO2] with [Scalar] = [double]: the
    same angle representation and the same formulas, each operation
    rounded.  [kEpsilon] is taken to be the machine epsilon of [double],
    [2^-52] (the spec speaks of "float vs double epsilon"). *)
Module SO2Double.
Record SO2GroupElement : Type := FromAngle {
  angle : float
}.

#[export] Instance traits : ManifoldTraits SO2GroupElement :=
  DoubleTraits SO2GroupElement float float 1 2.

#[export] Instance ops : ScalarOps (@Scalar SO2GroupElement traits) := double_ops.

#[export] Instance constants : Constants (@Scalar SO2GroupElement traits) := {|
  kEpsilon := 0x1p-52%float
|}.

Definition FromPointImpl (point : float) : SO2GroupElement :=
  FromAngle point.

Definition ProjectImpl (point : float) : float :=
  AnglesDouble.WrapAngle point.

Definition IsValidImpl (point : float) (tolerance : float) : bool :=
  (abs (point - AnglesDouble.WrapAngle point) <? tolerance)%float.

Definition PointImpl (self : SO2GroupElement) : float :=
  angle self.

Definition DistanceToImpl (self rhs : SO2GroupElement) : float :=
  abs (AnglesDouble.AngleDifference (angle self) (angle rhs)).

Definition InterpolateImpl (self rhs : SO2GroupElement) (fraction : float)
  : SO2GroupElement :=
  FromAngle
    (AnglesDouble.WrapAngle
       (angle self + fraction * AnglesDouble.AngleDifference (angle self) (angle rhs))%float).

#[export] Instance impl : ManifoldImpl SO2GroupElement :=
  Build_ManifoldImpl SO2GroupElement traits
    FromPointImpl ProjectImpl IsValidImpl PointImpl DistanceToImpl InterpolateImpl.
End SO2Double.

(** * Properties *)

(** ** Scalar orders *)

(** [Qlt_bool] decides [<]. *)
Lemma Qlt_bool_iff (x y : Q) : Qlt_bool x y = true <-> x < y.
Proof. unfold Qlt_bool, Qlt. apply Z.ltb_lt. Qed.

Lemma Qlt_bool_false_iff (x y : Q) : Qlt_bool x y = false <-> y <= x.
Proof.
  unfold Qlt_bool, Qle. rewrite Z.ltb_ge. reflexivity.
Qed.

#[export] Instance Q_order : ScalarOrder Q.
Proof.
  split.
  - reflexivity.
  - intros d t Hd Ht. cbn in *.
    apply Qle_bool_iff in Hd, Ht.
    apply Qlt_bool_false_iff. lra.
Qed.

(** The sign conditions also hold of IEEE doubles, whatever the operands:
    a NaN satisfies neither premise, and [-0] counts as zero. *)
#[export] Instance double_order : ScalarOrder float.
Proof.
  split.
  - reflexivity.
  - intros d t. cbn.
    rewrite !leb_spec, ltb_spec.
    change (Prim2SF 0%float) with (S754_zero false).
    destruct (Prim2SF d) as [sd | sd | | sd md ed],
             (Prim2SF t) as [st | st | | st mt et];
      unfold SFleb, SFltb; simpl; try reflexivity; try discriminate;
      repeat match goal with
             | |- context [if ?b then _ else _] => destruct b
             end;
      try reflexivity; try discriminate.
Qed.

(** ** The generic layer, for an arbitrary realization *)

Section Generic.
Context {Derived : Type} {Traits : ManifoldTraits Derived}.
Context {Ops : ScalarOps Scalar} {Consts : Constants Scalar}.
Context {Impl : ManifoldImpl Derived}.
Context {InitElement : ValueInit Derived} {InitTangent : ValueInit TangentVector}.

Local Abbreviation Element := Derived (only parsing).

(** *** Charts *)

(** C2: as written, [ToTangent] and [ToManifold] return the
    value-initialized result for every chart and every argument. *)
Theorem chart_maps_return_default :
  (forall (c : ManifoldChart Element) (rhs : Element),
      ManifoldChart.ToTangent c rhs = value_init)
  /\ (forall (c : ManifoldChart Element) (rhs : TangentVector),
      ManifoldChart.ToManifold c rhs = value_init).
Proof. split; intros c rhs; reflexivity. Qed.

(** C8: [ToTangent] does not depend on the chart it is called on nor on its
    argument: any two calls return the same tangent vector. *)
Theorem ToTangent_two_runs (origin1 origin2 rhs1 rhs2 : Element) :
  ManifoldChart.ToTangent (Chart origin1) rhs1
  = ManifoldChart.ToTangent (Chart origin2) rhs2.
Proof. unfold ManifoldChart.ToTangent. reflexivity. Qed.

(** Going to the tangent space and back always lands on the
    value-initialized element, so the round trip is tolerance-equal to its
    input only for the elements within tolerance of that one element. *)
Lemma chart_round_trip_element (c : ManifoldChart Element) (e : Element) :
  ManifoldElement.op_eq (ManifoldChart.ToManifold c (ManifoldChart.ToTangent c e)) e
  = Slt (DistanceToImpl value_init e) kEpsilon.
Proof. reflexivity. Qed.

(** And back from the manifold, every tangent vector has become the
    value-initialized one. *)
Lemma chart_round_trip_tangent (c : ManifoldChart Element) (v : TangentVector) :
  ManifoldChart.ToTangent c (ManifoldChart.ToManifold c v) = value_init.
Proof. reflexivity. Qed.

(** *** Interpolation *)


(** *** Approximate equality *)

(** C3: [EqualTo] is the strict comparison of the distance with the
    tolerance, [operator==] is [EqualTo] at [kEpsilon], and [operator!=]
    negates [operator==]. *)
Theorem EqualTo_is_distance_below (a b : Element) (t : Scalar) :
  ManifoldElement.EqualTo a b (Some t) = Slt (ManifoldElement.DistanceTo a b) t
  /\ ManifoldElement.op_eq a b = ManifoldElement.EqualTo a b (Some kEpsilon)
  /\ ManifoldElement.op_ne a b = negb (ManifoldElement.op_eq a b).
Proof.
  unfold ManifoldElement.op_ne, ManifoldElement.op_eq, ManifoldElement.EqualTo.
  cbn [default_arg]. repeat split.
Qed.

(** C7: a call that omits the tolerance runs with [kEpsilon]; a call that
    gives one compares with exactly that one, whatever the constants
    provider holds. *)
Theorem default_tolerance_is_kEpsilon (point : EmbeddingPoint) (a b : Element) :
  ManifoldElement.IsValid point None = IsValidImpl point kEpsilon
  /\ ManifoldElement.EqualTo a b None = Slt (DistanceToImpl a b) kEpsilon
  /\ (forall (K1 K2 : Constants Scalar) (t : Scalar),
         @ManifoldElement.IsValid Derived Traits K1 Impl point (Some t)
         = @ManifoldElement.IsValid Derived Traits K2 Impl point (Some t)
         /\ @ManifoldElement.EqualTo Derived Traits Ops K1 Impl a b (Some t)
            = @ManifoldElement.EqualTo Derived Traits Ops K2 Impl a b (Some t)
         /\ @ManifoldElement.IsValid Derived Traits K1 Impl point (Some t)
            = IsValidImpl point t
         /\ @ManifoldElement.EqualTo Derived Traits Ops K1 Impl a b (Some t)
            = Slt (DistanceToImpl a b) t).
Proof.
  split; [reflexivity | split; [reflexivity | ]].
  intros K1 K2 t.
  unfold ManifoldElement.IsValid, ManifoldElement.EqualTo,
    ManifoldElement.DistanceTo.
  cbn [default_arg]. repeat split.
Qed.

(** *** Geodesics *)

(** C5: a geodesic interpolates and measures by asking its begin element. *)
Theorem geodesic_delegates (g : ManifoldGeodesic Element) (fraction : Scalar) :
  ManifoldGeodesic.Interpolate g fraction
  = ManifoldElement.Interpolate (ManifoldGeodesic.beg g) (ManifoldGeodesic.end' g) fraction
  /\ ManifoldGeodesic.Length g
     = ManifoldElement.DistanceTo (ManifoldGeodesic.beg g) (ManifoldGeodesic.end' g).
Proof. destruct g as [b e]. split; reflexivity. Qed.

(** C6: [GeodesicTo] pairs the receiver with the argument, for every two
    elements: it is total, it is the constructor applied to the two of them,
    and it consults no method of the realization (it takes no
    [ManifoldImpl]), so in particular not [IsValidImpl]. *)
Theorem GeodesicTo_endpoints (a b : Element) :
  ManifoldGeodesic.beg (ManifoldElement.GeodesicTo a b) = a
  /\ ManifoldGeodesic.end' (ManifoldElement.GeodesicTo a b) = b
  /\ ManifoldElement.GeodesicTo a b = Geodesic a b.
Proof. repeat split. Qed.

(** Built by [GeodesicTo], a geodesic interpolates and measures exactly as
    the element it was built from. *)
Lemma geodesic_of_GeodesicTo (a b : Element) (fraction : Scalar) :
  ManifoldGeodesic.Interpolate (ManifoldElement.GeodesicTo a b) fraction
  = ManifoldElement.Interpolate a b fraction
  /\ ManifoldGeodesic.Length (ManifoldElement.GeodesicTo a b)
     = ManifoldElement.DistanceTo a b.
Proof. split; reflexivity. Qed.

(** A [const] method hands the object back as it found it. *)
Lemma invoke_keeps_object (g : ManifoldGeodesic Element) (c : ManifoldGeodesic.call) :
  fst (ManifoldGeodesic.invoke g c) = g.
Proof. destruct c; reflexivity. Qed.

(** So does any sequence of calls. *)
Lemma run_keeps_object (cs : list ManifoldGeodesic.call) :
  forall g : ManifoldGeodesic Element, fst (ManifoldGeodesic.run g cs) = g.
Proof.
  induction cs as [| c cs IH]; intros g.
  - reflexivity.
  - cbn [ManifoldGeodesic.run].
    destruct (ManifoldGeodesic.invoke g c) as [g1 r] eqn:Hc.
    destruct (ManifoldGeodesic.run g1 cs) as [g2 rs] eqn:Hr.
    cbn [fst].
    pose proof (IH g1) as H1. rewrite Hr in H1. cbn [fst] in H1.
    pose proof (invoke_keeps_object g c) as H0. rewrite Hc in H0. cbn [fst] in H0.
    congruence.
Qed.

(** Every call is answered. *)
Lemma run_length (cs : list ManifoldGeodesic.call) :
  forall g : ManifoldGeodesic Element,
    length (snd (ManifoldGeodesic.run g cs)) = length cs.
Proof.
  induction cs as [| c cs IH]; intros g.
  - reflexivity.
  - cbn [ManifoldGeodesic.run].
    destruct (ManifoldGeodesic.invoke g c) as [g1 r].
    specialize (IH g1).
    destruct (ManifoldGeodesic.run g1 cs) as [g2 rs].
    cbn in *. congruence.
Qed.

(** C9: a geodesic built from [(b, e)] answers [beg()] with [b] and [end()]
    with [e], and still does after any sequence of calls of its methods. *)
Theorem geodesic_endpoints_stable (b e : Element) (cs : list ManifoldGeodesic.call) :
  ManifoldGeodesic.beg (Geodesic b e) = b
  /\ ManifoldGeodesic.end' (Geodesic b e) = e
  /\ ManifoldGeodesic.beg (fst (ManifoldGeodesic.run (Geodesic b e) cs)) = b
  /\ ManifoldGeodesic.end' (fst (ManifoldGeodesic.run (Geodesic b e) cs)) = e.
Proof.
  rewrite run_keeps_object. repeat split.
Qed.

(** *** Tolerances that are not positive *)

(** C10: with a non-negative distance and a tolerance that is zero or
    negative, [EqualTo] answers false; so an element whose distance to
    itself is zero (at least and at most zero) is not [EqualTo] itself at
    tolerance zero. *)
Theorem EqualTo_false_at_nonpositive_tolerance
    {Order : ScalarOrder Scalar} (a : Element) :
  (forall (b : Element) (t : Scalar),
      Sle Szero (ManifoldElement.DistanceTo a b) = true ->
      Sle t Szero = true ->
      ManifoldElement.EqualTo a b (Some t) = false)
  /\ (Sle Szero (ManifoldElement.DistanceTo a a) = true ->
      Sle (ManifoldElement.DistanceTo a a) Szero = true ->
      ManifoldElement.EqualTo a a (Some Szero) = false).
Proof.
  assert (H : forall (b : Element) (t : Scalar),
             Sle Szero (ManifoldElement.DistanceTo a b) = true ->
             Sle t Szero = true ->
             ManifoldElement.EqualTo a b (Some t) = false).
  { intros b t Hd Ht. unfold ManifoldElement.EqualTo. cbn [default_arg].
    now apply Slt_across_zero. }
  split; [exact H | ].
  intros Hlo _. apply H; [exact Hlo | apply Sle_zero_zero].
Qed.
End Generic.

(** ** Rounding up *)

(** [Qceiling z] is the one integer [n] with [n - 1 < z <= n]. *)
Lemma Qceiling_unique (z : Q) (n : Z) :
  inject_Z n - 1 < z -> z <= inject_Z n -> Qceiling z = n.
Proof.
  intros Hlo Hhi.
  pose proof (Qceiling_lt z) as Hc1.
  pose proof (Qle_ceiling z) as Hc2.
  assert (H1 : inject_Z (Qceiling z - 1) < inject_Z n).
  { eapply Qlt_le_trans; eassumption. }
  assert (H2 : inject_Z (n - 1) < inject_Z (Qceiling z)).
  { eapply Qlt_le_trans; [ | exact Hc2].
    unfold Z.sub. rewrite inject_Z_plus, inject_Z_opp. exact Hlo. }
  rewrite <- Zlt_Qlt in H1, H2. lia.
Qed.

(** ** Angle wrapping *)

Section AngleFacts.
Variable pi : Q.
Hypothesis pi_pos : 0 < pi.

Local Abbreviation two_pi := (Angles.two_pi pi).
Local Abbreviation Turns := (Angles.Turns pi).
Local Abbreviation WrapAngle := (Angles.WrapAngle pi).

(** A whole turn is positive. *)
Lemma two_pi_pos : 0 < two_pi.
Proof. unfold Angles.two_pi. lra. Qed.

(** Taking [Turns x] turns off [x - pi] leaves something in (-2 pi, 0]. *)
Lemma Turns_bounds (x : Q) :
  inject_Z (Turns x) * two_pi - two_pi < x - pi
  /\ x - pi <= inject_Z (Turns x) * two_pi.
Proof.
  pose proof two_pi_pos as Ht.
  unfold Angles.Turns.
  set (z := (x - pi) / two_pi).
  assert (Hz : x - pi == z * two_pi).
  { unfold z. field. lra. }
  pose proof (Qceiling_lt z) as Hc1.
  pose proof (Qle_ceiling z) as Hc2.
  unfold Z.sub in Hc1. rewrite inject_Z_plus, inject_Z_opp in Hc1.
  change (inject_Z 1) with 1 in Hc1.
  rewrite Hz. clearbody z.
  generalize dependent (inject_Z (Qceiling z)). intros c Hc1 Hc2.
  split; nra.
Qed.

(** A wrapped angle is a canonical representative. *)
Lemma WrapAngle_range (x : Q) : - pi < WrapAngle x /\ WrapAngle x <= pi.
Proof.
  pose proof (Turns_bounds x) as [H1 H2].
  unfold Angles.WrapAngle, Angles.two_pi in *. split; lra.
Qed.

(** Only one number of turns lands in (-pi, pi]. *)
Lemma Turns_unique (x : Q) (k : Z) :
  - pi < x - inject_Z k * two_pi -> x - inject_Z k * two_pi <= pi -> Turns x = k.
Proof.
  intros Hlo Hhi. pose proof two_pi_pos as Ht.
  unfold Angles.Turns. apply Qceiling_unique.
  - apply Qlt_shift_div_l; [exact Ht | ]. unfold Angles.two_pi in *. lra.
  - apply Qle_shift_div_r; [exact Ht | ]. unfold Angles.two_pi in *. lra.
Qed.

(** The canonical representative is unique among the angles that differ
    from [x] by whole turns. *)
Lemma WrapAngle_unique (x y : Q) (k : Z) :
  y == x - inject_Z k * two_pi -> - pi < y -> y <= pi -> WrapAngle x == y.
Proof.
  intros Hy Hlo Hhi.
  unfold Angles.WrapAngle. rewrite (Turns_unique x k); lra.
Qed.

(** Whole turns wrap to zero. *)
Lemma WrapAngle_whole_turns (x : Q) (k : Z) :
  x == inject_Z k * two_pi -> WrapAngle x == 0.
Proof.
  intros Hx. apply (WrapAngle_unique x 0 k); lra.
Qed.

(** Wrapping leaves a canonical angle alone. *)
Lemma WrapAngle_in_range (x : Q) : - pi < x -> x <= pi -> WrapAngle x == x.
Proof.
  intros Hlo Hhi. apply (WrapAngle_unique x x 0); [ | assumption | assumption].
  change (inject_Z 0) with 0. unfold Angles.two_pi. lra.
Qed.

(** Wrapping forgets whole turns. *)
Lemma WrapAngle_periodic (x y : Q) (k : Z) :
  y == x + inject_Z k * two_pi -> WrapAngle y == WrapAngle x.
Proof.
  intros Hy.
  pose proof (WrapAngle_range x) as [Hlo Hhi].
  apply (WrapAngle_unique y (WrapAngle x) (Turns x + k)); [ | assumption | assumption].
  rewrite inject_Z_plus. unfold Angles.WrapAngle at 1. rewrite Hy. ring.
Qed.
End AngleFacts.

(** ** The planar-rotation realization *)

Section SO2Facts.
Variable pi : Q.
Variable epsilon : Q.
Hypothesis pi_pos : 0 < pi.
Hypothesis epsilon_pos : 0 < epsilon.

Local Abbreviation DistanceTo :=
  (@ManifoldElement.DistanceTo SO2.SO2GroupElement SO2.traits (SO2.impl pi)).
Local Abbreviation op_eq :=
  (@ManifoldElement.op_eq SO2.SO2GroupElement SO2.traits SO2.ops
     (SO2.constants epsilon) (SO2.impl pi)).

(** The shortest-arc distance is never negative and never more than a half
    turn. *)
Lemma SO2_DistanceTo_bounds (a b : SO2.SO2GroupElement) :
  0 <= DistanceTo a b /\ DistanceTo a b <= pi.
Proof.
  unfold ManifoldElement.DistanceTo. cbn [DistanceToImpl SO2.impl].
  unfold SO2.DistanceToImpl, Angles.AngleDifference.
  pose proof (WrapAngle_range pi pi_pos (SO2.angle b - SO2.angle a)) as [Hlo Hhi].
  split; [apply Qabs_nonneg | ].
  apply Qabs_Qle_condition. split; lra.
Qed.

(** Whatever rotation [d] value-initialization yields, and for every chart,
    some rotation does not survive the trip to the tangent space and back:
    the one a quarter turn from [d]. *)
Lemma SO2_chart_round_trip_fails_for_any_default
    (d : SO2.SO2GroupElement) (c : ManifoldChart SO2.SO2GroupElement) :
  epsilon <= pi / 2 ->
  let e := SO2.FromAngle (SO2.angle d + pi / 2) in
  op_eq
    (@ManifoldChart.ToManifold SO2.SO2GroupElement SO2.traits {| value_init := d |} c
       (@ManifoldChart.ToTangent SO2.SO2GroupElement SO2.traits SO2.init_tangent c e))
    e = false.
Proof.
  intros Heps e.
  unfold ManifoldChart.ToManifold. cbn [value_init].
  apply Qlt_bool_false_iff.
  change (epsilon <= Qabs (Angles.WrapAngle pi (SO2.angle e - SO2.angle d))).
  assert (Hhalf : pi / 2 == pi * (1 # 2)) by field.
  unfold e. cbn [SO2.angle].
  set (h := pi / 2) in *.
  assert (Hq : Angles.WrapAngle pi (SO2.angle d + h - SO2.angle d) == h).
  { apply (WrapAngle_unique pi pi_pos _ _ 0).
    - change (inject_Z 0) with 0. ring.
    - lra.
    - lra. }
  rewrite Hq, Qabs_pos; lra.
Qed.

End SO2Facts.

(** ** Planar rotations at [kPi] and [kDoubleEpsilon] *)

Section SO2Examples.
Local Abbreviation rot := SO2.FromAngle (only parsing).
Local Abbreviation Interpolate :=
  (@ManifoldElement.Interpolate SO2.SO2GroupElement SO2.traits SO2.double_impl)
  (only parsing).
Local Abbreviation DistanceTo :=
  (@ManifoldElement.DistanceTo SO2.SO2GroupElement SO2.traits SO2.double_impl)
  (only parsing).
Local Abbreviation IsValid :=
  (@ManifoldElement.IsValid SO2.SO2GroupElement SO2.traits SO2.double_constants
     SO2.double_impl)
  (only parsing).
Local Abbreviation FromPoint :=
  (@ManifoldElement.FromPoint SO2.SO2GroupElement SO2.traits SO2.double_impl)
  (only parsing).
Local Abbreviation GeodesicTo :=
  (@ManifoldElement.GeodesicTo SO2.SO2GroupElement)
  (only parsing).
Local Abbreviation EqualTo :=
  (@ManifoldElement.EqualTo SO2.SO2GroupElement SO2.traits SO2.ops
     SO2.double_constants SO2.double_impl)
  (only parsing).
Local Abbreviation op_eq :=
  (@ManifoldElement.op_eq SO2.SO2GroupElement SO2.traits SO2.ops
     SO2.double_constants SO2.double_impl)
  (only parsing).
Local Abbreviation ToTangent :=
  (@ManifoldChart.ToTangent SO2.SO2GroupElement SO2.traits SO2.init_tangent)
  (only parsing).
Local Abbreviation ToManifold :=
  (@ManifoldChart.ToManifold SO2.SO2GroupElement SO2.traits SO2.init_element)
  (only parsing).

(** The spec's sample values: halfway between the rotations by 0 and pi/2
    is the rotation by pi/4; fraction 2 from 0 towards pi/4 extrapolates to
    pi/2; the rotations by 0.1 and by 2 pi + 0.1 are at distance zero. *)
Example SO2_sample_values :
  SO2.angle (Interpolate (rot 0) (rot (SO2.kPi / 2)) (1 # 2)) == SO2.kPi / 4
  /\ SO2.angle (Interpolate (rot 0) (rot (SO2.kPi / 4)) 2) == SO2.kPi / 2
  /\ DistanceTo (rot (1 # 10)) (rot (2 * SO2.kPi + (1 # 10))) == 0.
Proof. repeat split. Qed.

(** An element made from a point that fails [IsValid] still gets its
    geodesics: [GeodesicTo] does not look. *)
Example SO2_geodesic_from_invalid_point :
  IsValid 10 None = false
  /\ GeodesicTo (FromPoint 10) (rot 0) = Geodesic (rot 10) (rot 0).
Proof. split; reflexivity. Qed.

(** C1: the round trips through a chart fail.  With the chart at the
    rotation by pi/2: that rotation goes to the tangent space and comes back
    as the value-initialized rotation, which is not [operator==] to it; the
    tangent vector 1 comes back as 0, a whole unit away; and the zero
    tangent vector is not mapped to the chart's origin, as the comment on
    [origin_] says it is. *)
Theorem chart_round_trip_fails :
  let quarter := rot (SO2.kPi / 2) in
  let c := Chart quarter in
  op_eq (ToManifold c (ToTangent c quarter)) quarter = false
  /\ Qlt_bool (Qabs (ToTangent c (ToManifold c 1) - 1)) SO2.kDoubleEpsilon = false
  /\ op_eq (ToManifold c 0) (origin_ c) = false.
Proof. repeat split. Qed.

(** Two rotations one radian apart are not [EqualTo] at tolerance -0.1, and
    the rotation by 1, at distance zero from itself, is not [EqualTo] itself
    at tolerance 0. *)
Lemma EqualTo_false_at_nonpositive_tolerance_witness :
  (Sle Szero (DistanceTo (rot 1) (rot 2)) = true
   /\ Sle (-1 # 10) Szero = true
   /\ EqualTo (rot 1) (rot 2) (Some (-1 # 10)) = false)
  /\ (Sle Szero (DistanceTo (rot 1) (rot 1)) = true
      /\ Sle (DistanceTo (rot 1) (rot 1)) Szero = true
      /\ EqualTo (rot 1) (rot 1) (Some 0) = false).
Proof.
  pose proof (@EqualTo_false_at_nonpositive_tolerance
                SO2.SO2GroupElement SO2.traits SO2.ops SO2.double_constants
                SO2.double_impl Q_order (rot 1)) as [Hany Hself].
  split.
  - split; [reflexivity | split; [reflexivity | ]].
    apply Hany; reflexivity.
  - split; [reflexivity | split; [reflexivity | ]].
    apply Hself; reflexivity.
Defined.
End SO2Examples.

(** ** Comparing at more than one tolerance *)

#[export] Instance Q_strict : ScalarStrict Q.
Proof.
  split.
  - intros x. apply Qlt_bool_false_iff. apply Qle_refl.
  - intros x y z Hxy Hyz. cbn in *.
    apply Qlt_bool_iff in Hxy. apply Qle_bool_iff in Hyz.
    apply Qlt_bool_iff. eapply Qlt_le_trans; eassumption.
Qed.

Ltac case_compare :=
  repeat match goal with
         | H : context [Z.compare ?a ?b] |- _ => destruct (Z.compare_spec a b)
         | |- context [Z.compare ?a ?b] => destruct (Z.compare_spec a b)
         | H : context [Pos.compare_cont Eq ?a ?b] |- _ =>
             change (Pos.compare_cont Eq a b) with (Pos.compare a b) in *;
             destruct (Pos.compare_spec a b)
         | |- context [Pos.compare_cont Eq ?a ?b] =>
             change (Pos.compare_cont Eq a b) with (Pos.compare a b) in *;
             destruct (Pos.compare_spec a b)
         end.

(** On the floats of the IEEE specification, [x < y <= z] gives [x < z]:
    a NaN satisfies neither premise. *)
Lemma SFltb_leb_trans (x y z : spec_float) :
  SFltb x y = true -> SFleb y z = true -> SFltb x z = true.
Proof.
  unfold SFltb, SFleb.
  destruct x as [sx | sx | | sx mx ex], y as [sy | sy | | sy my ey],
           z as [sz | sz | | sz mz ez];
    cbn [SFcompare];
    repeat match goal with s : bool |- _ => destruct s end;
    try discriminate; try reflexivity;
    intros H1 H2; case_compare; cbn in *; subst;
    try discriminate; try reflexivity; try lia.
Qed.

(** No float is below itself. *)
Lemma SFltb_irrefl (x : spec_float) : SFltb x x = false.
Proof.
  unfold SFltb.
  destruct x as [sx | sx | | sx mx ex]; cbn [SFcompare];
    repeat match goal with s : bool |- _ => destruct s end;
    try reflexivity; rewrite Z.compare_refl;
    change (Pos.compare_cont Eq mx mx) with (Pos.compare mx mx);
    rewrite Pos.compare_refl; reflexivity.
Qed.

(** Nothing is below a NaN, and a NaN is below nothing. *)
Lemma SFltb_nan (x : spec_float) :
  SFltb x S754_nan = false /\ SFltb S754_nan x = false.
Proof. destruct x; split; reflexivity. Qed.

(** [is_nan] holds of the NaN only. *)
Lemma is_nan_spec (x : float) : is_nan x = true -> Prim2SF x = S754_nan.
Proof.
  unfold is_nan. rewrite eqb_spec. unfold SFeqb.
  destruct (Prim2SF x) as [sx | sx | | sx mx ex]; cbn [SFcompare];
    repeat match goal with s : bool |- _ => destruct s end;
    try discriminate; try reflexivity;
    rewrite Z.compare_refl;
    change (Pos.compare_cont Eq mx mx) with (Pos.compare mx mx);
    rewrite Pos.compare_refl; discriminate.
Qed.

#[export] Instance double_strict : ScalarStrict float.
Proof.
  split.
  - intros x. cbn. rewrite ltb_spec. apply SFltb_irrefl.
  - intros x y z. cbn. rewrite !ltb_spec, leb_spec. apply SFltb_leb_trans.
Qed.

Section Tolerances.
Context {Derived : Type} {Traits : ManifoldTraits Derived}.
Context {Ops : ScalarOps Scalar} {Consts : Constants Scalar}.
Context {Impl : ManifoldImpl Derived}.
Context {Strict : ScalarStrict Scalar}.

Local Abbreviation Element := Derived (only parsing).

(** Widening the tolerance keeps two elements [EqualTo]; narrowing it keeps
    them apart. *)
Theorem EqualTo_tolerance_monotone (a b : Element) (t1 t2 : Scalar) :
  Sle t1 t2 = true ->
  (ManifoldElement.EqualTo a b (Some t1) = true ->
   ManifoldElement.EqualTo a b (Some t2) = true)
  /\ (ManifoldElement.EqualTo a b (Some t2) = false ->
      ManifoldElement.EqualTo a b (Some t1) = false)
  /\ (t1 = kEpsilon ->
      ManifoldElement.op_eq a b = true ->
      ManifoldElement.EqualTo a b (Some t2) = true).
Proof.
  intros Hle.
  assert (Hup : ManifoldElement.EqualTo a b (Some t1) = true ->
                ManifoldElement.EqualTo a b (Some t2) = true).
  { unfold ManifoldElement.EqualTo. cbn [default_arg].
    intros H1. eapply Slt_le_trans; eassumption. }
  split; [exact Hup | split].
  - intros H2.
    destruct (ManifoldElement.EqualTo a b (Some t1)) eqn:H1; [ | reflexivity].
    rewrite (Hup eq_refl) in H2. discriminate.
  - intros -> Heq. apply Hup. exact Heq.
Qed.

(** The tolerance is an exclusive bound: two elements are not [EqualTo] at
    a tolerance equal to their distance, nor at any tolerance that is at
    most their distance. *)
Theorem EqualTo_bound_is_exclusive (a b : Element) :
  ManifoldElement.EqualTo a b (Some (ManifoldElement.DistanceTo a b)) = false
  /\ (forall t : Scalar,
        Sle t (ManifoldElement.DistanceTo a b) = true ->
        ManifoldElement.EqualTo a b (Some t) = false).
Proof.
  unfold ManifoldElement.EqualTo. cbn [default_arg].
  split; [apply Slt_irrefl | ].
  intros t Hle.
  destruct (Slt (ManifoldElement.DistanceTo a b) t) eqn:Hlt; [ | reflexivity].
  pose proof (Slt_le_trans _ _ _ Hlt Hle) as Hdd.
  rewrite Slt_irrefl in Hdd. discriminate.
Qed.
End Tolerances.

(** ** Realizations over doubles: NaN *)

Section DoubleScalars.
Context {Derived TV EP : Type} {dim edim : Z}.
Context {Consts : Constants float}.
Context {Impl : @ManifoldImpl Derived (DoubleTraits Derived TV EP dim edim)}.

Local Abbreviation T := (DoubleTraits Derived TV EP dim edim) (only parsing).
Local Abbreviation DistanceTo := (@ManifoldElement.DistanceTo Derived T Impl)
  (only parsing).
Local Abbreviation EqualTo :=
  (@ManifoldElement.EqualTo Derived T double_ops Consts Impl) (only parsing).
Local Abbreviation op_eq :=
  (@ManifoldElement.op_eq Derived T double_ops Consts Impl) (only parsing).
Local Abbreviation op_ne :=
  (@ManifoldElement.op_ne Derived T double_ops Consts Impl) (only parsing).

(** With [double] scalars, [EqualTo] never holds when the tolerance or the
    distance is a NaN; so when the distance or [kEpsilon] is a NaN,
    [operator==] is false and [operator!=] is true, also of an element and
    itself. *)
Theorem EqualTo_false_at_nan (a b : Derived) (t : float) :
  EqualTo a b (Some t) && (is_nan t || is_nan (DistanceTo a b)) = false
  /\ op_eq a b && (is_nan kEpsilon || is_nan (DistanceTo a b)) = false
  /\ implb (is_nan kEpsilon || is_nan (DistanceTo a b)) (op_ne a b) = true.
Proof.
  assert (H : forall u : float,
             EqualTo a b (Some u) && (is_nan u || is_nan (DistanceTo a b)) = false).
  { intros u. unfold ManifoldElement.EqualTo. cbn [default_arg Slt double_ops].
    rewrite ltb_spec.
    destruct (is_nan u) eqn:Hu.
    - rewrite (is_nan_spec _ Hu).
      destruct (SFltb_nan (Prim2SF (DistanceTo a b))) as [-> _]. reflexivity.
    - destruct (is_nan (DistanceTo a b)) eqn:Hd.
      + rewrite (is_nan_spec _ Hd).
        destruct (SFltb_nan (Prim2SF u)) as [_ ->]. reflexivity.
      + apply andb_false_r. }
  split; [apply H | ].
  pose proof (H kEpsilon) as HK.
  change (EqualTo a b (Some kEpsilon)) with (op_eq a b) in HK.
  split; [exact HK | ].
  unfold ManifoldElement.op_ne.
  destruct (is_nan kEpsilon || is_nan (DistanceTo a b)); [ | reflexivity].
  rewrite andb_true_r in HK. fold (op_eq a b). rewrite HK. reflexivity.
Qed.
End DoubleScalars.

(** ** Tolerances on planar rotations *)

Section SO2Tolerances.
Local Abbreviation rot := SO2.FromAngle (only parsing).
Local Abbreviation DistanceTo :=
  (@ManifoldElement.DistanceTo SO2.SO2GroupElement SO2.traits SO2.double_impl)
  (only parsing).
Local Abbreviation EqualTo :=
  (@ManifoldElement.EqualTo SO2.SO2GroupElement SO2.traits SO2.ops
     SO2.double_constants SO2.double_impl)
  (only parsing).

(** The rotations by 0 and by 0.1 are [EqualTo] at tolerance 0.2, hence at
    tolerance 0.5. *)
Lemma EqualTo_tolerance_monotone_witness :
  Sle (1 # 5) (1 # 2) = true
  /\ EqualTo (rot 0) (rot (1 # 10)) (Some (1 # 5)) = true
  /\ EqualTo (rot 0) (rot (1 # 10)) (Some (1 # 2)) = true.
Proof.
  assert (Hle : @Sle Q Q_ops (1 # 5) (1 # 2) = true) by reflexivity.
  pose proof (@EqualTo_tolerance_monotone
                SO2.SO2GroupElement SO2.traits SO2.ops SO2.double_constants
                SO2.double_impl Q_strict (rot 0) (rot (1 # 10)) (1 # 5) (1 # 2) Hle)
    as [Hup _].
  split; [exact Hle | split; [reflexivity | ]].
  apply Hup. reflexivity.
Defined.

(** The rotations by 0 and by 0.1 are not [EqualTo] at tolerance 0.1, their
    distance, nor at tolerance 0.05. *)
Lemma EqualTo_bound_is_exclusive_witness :
  DistanceTo (rot 0) (rot (1 # 10)) == 1 # 10
  /\ EqualTo (rot 0) (rot (1 # 10)) (Some (DistanceTo (rot 0) (rot (1 # 10)))) = false
  /\ EqualTo (rot 0) (rot (1 # 10)) (Some (1 # 20)) = false.
Proof.
  pose proof (@EqualTo_bound_is_exclusive
                SO2.SO2GroupElement SO2.traits SO2.ops SO2.double_constants
                SO2.double_impl Q_strict (rot 0) (rot (1 # 10)))
    as [Hat Hbelow].
  split; [reflexivity | split; [exact Hat | ]].
  apply Hbelow. reflexivity.
Defined.
End SO2Tolerances.

(** ** Geodesics and the elements they join *)

Section GeodesicUse.
Context {Derived : Type} {Traits : ManifoldTraits Derived}.
Context {Ops : ScalarOps Scalar} {Consts : Constants Scalar}.
Context {Impl : ManifoldImpl Derived}.

Local Abbreviation Element := Derived (only parsing).

(** Whether two elements are [EqualTo] is whether the geodesic between them
    is shorter than the tolerance: [EqualTo] compares the number that
    [GeodesicTo] followed by [Length] returns, and the geodesic interpolates
    as the element it starts from. *)
Theorem EqualTo_is_short_geodesic
    (a b : Element) (tolerance : option Scalar) (fraction : Scalar) :
  ManifoldElement.EqualTo a b tolerance
  = Slt (ManifoldGeodesic.Length (ManifoldElement.GeodesicTo a b))
        (default_arg kEpsilon tolerance)
  /\ ManifoldElement.op_ne a b
     = negb (Slt (ManifoldGeodesic.Length (ManifoldElement.GeodesicTo a b)) kEpsilon)
  /\ ManifoldGeodesic.Interpolate (ManifoldElement.GeodesicTo a b) fraction
     = InterpolateImpl a b fraction.
Proof. repeat split. Qed.

End GeodesicUse.

(** ** Interpolation: what the header adds to the realization *)

Section InterpolationForwarding.
Context {Derived : Type} {Traits : ManifoldTraits Derived}.
Context {Ops : ScalarOps Scalar} {Consts : Constants Scalar}.
Context {Impl : ManifoldImpl Derived}.

Local Abbreviation Element := Derived (only parsing).

End InterpolationForwarding.

(** ** Planar rotations over doubles *)

Section SO2DoubleExamples.
Local Abbreviation rot := SO2Double.FromAngle (only parsing).
Local Abbreviation IsValid :=
  (@ManifoldElement.IsValid SO2Double.SO2GroupElement SO2Double.traits
     SO2Double.constants SO2Double.impl)
  (only parsing).
Local Abbreviation Interpolate :=
  (@ManifoldElement.Interpolate SO2Double.SO2GroupElement SO2Double.traits
     SO2Double.impl)
  (only parsing).
Local Abbreviation DistanceTo :=
  (@ManifoldElement.DistanceTo SO2Double.SO2GroupElement SO2Double.traits
     SO2Double.impl)
  (only parsing).
Local Abbreviation op_eq :=
  (@ManifoldElement.op_eq SO2Double.SO2GroupElement SO2Double.traits
     SO2Double.ops SO2Double.constants SO2Double.impl)
  (only parsing).


(** The spec's sample values hold in [double] as they stand: halfway
    between the rotations by 0 and pi/2 is the rotation by pi/4, and
    fraction 2 from 0 towards pi/4 extrapolates to pi/2. *)
Example SO2Double_sample_values :
  Interpolate (rot 0%float) (rot (AnglesDouble.kPi / 2)%float) 0.5%float
  = rot (AnglesDouble.kPi / 4)%float
  /\ Interpolate (rot 0%float) (rot (AnglesDouble.kPi / 4)%float) 2%float
     = rot (AnglesDouble.kPi / 2)%float.
Proof. vm_compute. split; reflexivity. Qed.
End SO2DoubleExamples.
